(** * colormap_to_pal.py: export_cmap_as_pal_txt

    Shallow embedding of the PAL text writer.  Python floats are modelled
    as exact rationals [Q]; numpy's [linspace] is followed line by line
    (including its special cases); the working directory is a finite map
    from paths to file contents, threaded through a small state/error
    monad that also carries the Python exceptions the code can raise. *)

From Stdlib Require Import ZArith QArith Qround Ascii.
From stdpp Require Import base list gmap strings pretty.

Open Scope Z_scope.

(** ** Python exceptions raised along the code paths *)
Inductive exn :=
| KeyError            (** [mpl.colormaps[colormap]] on an unknown name *)
| ValueError          (** [np.linspace] with a negative [num] *)
| ZeroDivisionError   (** [i/(nlevels-1)] with [nlevels = 1] *)
| IndexError.         (** [levels[i]] out of range *)

(** ** The working directory and the I/O monad *)
Abbreviation files := (gmap string string).

Definition PyM (A : Type) : Type := files -> (exn + A) * files.

Global Instance PyM_ret : MRet PyM := fun A x m => (inr x, m).
Global Instance PyM_bind : MBind PyM := fun A B f c m =>
  match c m with
  | (inl e, m') => (inl e, m')
  | (inr x, m') => f x m'
  end.

Definition raise {A} (e : exn) : PyM A := fun m => (inl e, m).

(** A pure, fallible computation run inside the monad. *)
Definition lift {A} (r : exn + A) : PyM A :=
  match r with inl e => raise e | inr x => mret x end.

(** [open(path, "w")]: creates or truncates the file. *)
Definition open_w (path : string) : PyM unit :=
  fun m => (inr tt, <[path := ""]> m).

(** [f.write(s)]: appends to the file. *)
Definition write (path : string) (s : string) : PyM unit :=
  fun m => (inr tt, <[path := default "" (m !! path) +:+ s]> m).

Fixpoint mapM_ {A} (f : A -> PyM unit) (l : list A) : PyM unit :=
  match l with
  | [] => mret tt
  | x :: l' => f x ;; mapM_ f l'
  end.

(** ** Characters the code writes that need escapes here *)
Definition nl : string := String "010"%char EmptyString.
Definition dq : string := String "034"%char EmptyString.

(** ** numpy.linspace(start, stop, num, retstep=True)

    The step is [None] where numpy returns [nan] ([num] is 0 or 1). *)
Definition arange (n : Z) : list Z := map Z.of_nat (seq 0 (Z.to_nat n)).

Definition linspace (start stop : Q) (num : Z) : exn + (list Q * option Q) :=
  if num <? 0 then inl ValueError else
  let div := num - 1 in
  let y := map inject_Z (arange num) in
  let delta := (stop - start)%Q in
  let '(y, step) :=
    if 0 <? div then
      let step := (delta / inject_Z div)%Q in
      if Qeq_bool step 0
      then (map (fun v => v / inject_Z div * delta)%Q y, Some step)
      else (map (fun v => v * step)%Q y, Some step)
    else (map (fun v => v * delta)%Q y, None) in
  let y := map (fun v => v + start)%Q y in
  let y := if 1 <? num then <[Z.to_nat div := stop]> y else y in
  inr (y, step).

(** ** The sampling loop *)

(** A registered colormap: normalised position to an RGBA tuple. *)
Definition colormap := Q -> Q * Q * Q * Q.

(** Python's [int] on a float: truncation toward zero. *)
Definition py_int (q : Q) : Z := Z.quot (Qnum q) (Zpos (Qden q)).

(** Python's true division of two ints. *)
Definition py_div (a b : Z) : exn + Q :=
  if b =? 0 then inl ZeroDivisionError else inr (inject_Z a / inject_Z b)%Q.

(** The tuple [(levels[i], int(r*255), int(g*255), int(b*255))]. *)
Record triplet := { lvl : Q; red : Z; green : Z; blue : Z }.

(** [for i in range(nlevels): ...], over the remaining indices. *)
Fixpoint sample_loop (cmap : colormap) (levels : list Q) (nlevels : Z)
    (idx : list Z) : exn + list triplet :=
  match idx with
  | [] => inr []
  | i :: idx' =>
      match py_div i (nlevels - 1) with
      | inl e => inl e
      | inr t =>
          let '(r, g, b, _) := cmap t in
          match levels !! Z.to_nat i with
          | None => inl IndexError
          | Some lv =>
              match sample_loop cmap levels nlevels idx' with
              | inl e => inl e
              | inr rest =>
                  inr ({| lvl := lv; red := py_int (r * 255);
                          green := py_int (g * 255);
                          blue := py_int (b * 255) |} :: rest)
              end
          end
      end
  end.

(** ** Formatting *)

Fixpoint spaces (n : nat) : string :=
  match n with O => "" | S n' => String " " (spaces n') end.

Definition pad_left (w : nat) (s : string) : string :=
  spaces (w - String.length s) +:+ s.

(** [%4d] *)
Definition fmt_4d (z : Z) : string := pad_left 4 (pretty z).

(** Round half to even, as printf does on the exact value. *)
Definition round_half_even (q : Q) : Z :=
  let f := Qfloor q in
  let frac := (q - inject_Z f)%Q in
  if Qlt_le_dec frac (1 # 2) then f
  else if Qeq_bool frac (1 # 2) then (if Z.even f then f else f + 1)
  else f + 1.

(** [%5.2f] *)
Definition fmt_5_2f (q : Q) : string :=
  let n := Z.abs (round_half_even (q * 100)) in
  let sign := if Qlt_le_dec q 0 then "-" else "" in
  pad_left 5 (sign +:+ pretty (n / 100) +:+ "."
              +:+ pretty (n mod 100 / 10) +:+ pretty (n mod 10)).

(** [str(step)], with [float_str] Python's repr of a finite float. *)
Definition py_str_float (float_str : Q -> string) (x : option Q) : string :=
  match x with None => "nan" | Some q => float_str q end.

(** ['Color: %5.2f  %4d %4d %4d 255' % triplet], without the newline. *)
Definition color_line (t : triplet) : string :=
  "Color: " +:+ fmt_5_2f (lvl t) +:+ "  " +:+ fmt_4d (red t) +:+ " "
  +:+ fmt_4d (green t) +:+ " " +:+ fmt_4d (blue t) +:+ " 255".

Definition sentinel_line : string :=
  "Unique: 800 " +:+ dq +:+ "RF" +:+ dq +:+ "    119   0  125".

Definition pal_path (colormap field : string) : string :=
  "./" +:+ colormap +:+ "_" +:+ field +:+ ".pal".

(** ** export_cmap_as_pal_txt *)
Definition export_cmap_as_pal_txt (float_str : Q -> string)
    (colormaps : gmap string colormap) (cmap_name field units : string)
    (min max : Q) (nlevels : Z) (unique : bool) : PyM unit :=
  '(levels, step) ← lift (linspace min max nlevels);
  cmap ← lift (match colormaps !! cmap_name with
               | Some c => inr c | None => inl KeyError end);
  rgb_triplets ← lift (sample_loop cmap levels nlevels (arange nlevels));
  let path := pal_path cmap_name field in
  open_w path ;;
  write path ("Product: " +:+ field +:+ nl) ;;
  write path ("Units:   " +:+ units +:+ nl) ;;
  (if String.eqb field "CC"
   then write path ("Scale: 100" +:+ nl)
   else write path ("Step: " +:+ py_str_float float_str step +:+ nl)) ;;
  write path nl ;;
  mapM_ (fun t => write path (color_line t +:+ nl)) (rev rgb_triplets) ;;
  (if unique then write path (sentinel_line +:+ nl) else mret tt).

(** ** A concrete [repr] of floats and a concrete registry *)

(** Decimal digits of [num/den] for [0 <= num < den], at most [fuel]. *)
Fixpoint frac_digits (fuel : nat) (num den : Z) : string :=
  match fuel with
  | O => ""
  | S fuel' =>
      if num =? 0 then ""
      else pretty (num * 10 / den) +:+ frac_digits fuel' (num * 10 mod den) den
  end.

(** Python's [repr] of a float, on the values whose magnitude lies in
    [1e-4, 1e16) and whose decimal expansion ends within 17 fractional
    digits: integral values print as ["n.0"], others as their expansion. *)
Definition py_float_repr (q : Q) : string :=
  let q' := Qred q in
  let n := Qnum q' in
  let d := Zpos (Qden q') in
  let sign := if n <? 0 then "-" else "" in
  let a := Z.abs n in
  if d =? 1 then sign +:+ pretty a +:+ ".0"
  else sign +:+ pretty (a / d) +:+ "." +:+ frac_digits 17 (a mod d) d.

(** The linear grayscale colormap [t -> (t, t, t)], opaque. *)
Definition gray : colormap := fun t => (t, t, t, 1%Q).

Definition test_registry : gmap string colormap := {[ "testmap" := gray ]}.

(** Grayscale with its input clipped to [[0, 1]], as matplotlib colormaps
    clip a float input. *)
Definition clip01 (q : Q) : Q :=
  if Qlt_le_dec q 0 then 0%Q else if Qlt_le_dec 1 q then 1%Q else q.

Definition gray_clip : colormap := fun t => let c := clip01 t in (c, c, c, 1%Q).

(** The lines of [testmap_ZDR.pal] for [("testmap", "ZDR", "DB", -1., 5., 7,
    True)]. *)
Definition testmap_ZDR_lines : list string :=
  ["Product: ZDR"; "Units:   DB"; "Step: 1.0"; "";
   "Color:  5.00   255  255  255 255";
   "Color:  4.00   212  212  212 255";
   "Color:  3.00   170  170  170 255";
   "Color:  2.00   127  127  127 255";
   "Color:  1.00    85   85   85 255";
   "Color:  0.00    42   42   42 255";
   "Color: -1.00     0    0    0 255";
   sentinel_line].

(** ** The file the export writes, as a list of lines *)

(** Contents of a file written line by line, each line ended by ['\n']. *)
Definition render (ls : list string) : string :=
  fold_left (fun acc l => acc +:+ (l +:+ nl)) ls "".

Definition header_lines (float_str : Q -> string) (field units : string)
    (step : option Q) : list string :=
  ["Product: " +:+ field; "Units:   " +:+ units;
   (if String.eqb field "CC" then "Scale: 100"
    else "Step: " +:+ py_str_float float_str step); ""].

(** Header, one Color line per emitted entry, optional sentinel. *)
Definition pal_lines (float_str : Q -> string) (field units : string)
    (step : option Q) (emitted : list triplet) (unique : bool) : list string :=
  header_lines float_str field units step ++ map color_line emitted
  ++ (if unique then [sentinel_line] else []).

(** The part of the export before the file is opened. *)
Definition prepare (colormaps : gmap string colormap) (cmap_name : string)
    (min max : Q) (nlevels : Z) : exn + (option Q * list triplet) :=
  match linspace min max nlevels with
  | inl e => inl e
  | inr (levels, step) =>
      match colormaps !! cmap_name with
      | None => inl KeyError
      | Some cmap =>
          match sample_loop cmap levels nlevels (arange nlevels) with
          | inl e => inl e
          | inr trips => inr (step, trips)
          end
      end
  end.

(** The two header lines that carry the scale or the step. *)
Definition is_scale_or_step (l : string) : bool :=
  String.eqb l "Scale: 100" || String.prefix "Step: " l.

(** ** The example calls run at module level *)

(** The arguments of one call of [export_cmap_as_pal_txt]. *)
Record call := {
  cl_colormap : string; cl_field : string; cl_units : string;
  cl_min : Q; cl_max : Q; cl_nlevels : Z; cl_unique : bool }.

Definition mk_call c f u mn mx n uq : call :=
  {| cl_colormap := c; cl_field := f; cl_units := u; cl_min := mn;
     cl_max := mx; cl_nlevels := n; cl_unique := uq |}.

Definition example_calls : list call :=
  [mk_call "pyart_HomeyerRainbow" "BR" "DBZ" (-25) 75 21 true;
   mk_call "Spectral_r" "ZDR" "DB" (-1) 5 7 true;
   mk_call "YlGnBu_r" "PDP" "DEG" 0 200 6 true;
   mk_call "RdBu_r" "BV" "KTS" (-70) 70 15 true;
   mk_call "pyart_HomeyerRainbow" "CC" "Unitless" 20 100 9 true;
   mk_call "inferno" "KDP" "DEG/KM" (-2) 7 10 true;
   mk_call "plasma" "SW" "KTS" 0 30 11 true].

Definition run_call (float_str : Q -> string) (colormaps : gmap string colormap)
    (c : call) : PyM unit :=
  export_cmap_as_pal_txt float_str colormaps (cl_colormap c) (cl_field c)
    (cl_units c) (cl_min c) (cl_max c) (cl_nlevels c) (cl_unique c).

Definition call_path (c : call) : string := pal_path (cl_colormap c) (cl_field c).

(** The module body: the seven calls, in order. *)
Definition run_examples (float_str : Q -> string)
    (colormaps : gmap string colormap) : PyM unit :=
  mapM_ (run_call float_str colormaps) example_calls.

(** A registry holding every colormap name the module body uses. *)
Definition example_registry : gmap string colormap :=
  {[ "pyart_HomeyerRainbow" := gray_clip; "Spectral_r" := gray_clip;
     "YlGnBu_r" := gray_clip; "RdBu_r" := gray_clip; "inferno" := gray_clip;
     "plasma" := gray_clip ]}.

(** ** Monad and I/O lemmas *)

Lemma fold_left_map_app {A} (f : A -> string) (ls : list A) (acc : string) :
  fold_left (fun a t => a +:+ (f t +:+ nl)) ls acc
  = fold_left (fun a l => a +:+ (l +:+ nl)) (map f ls) acc.
Proof. revert acc; induction ls as [|x ls IH]; intros acc; simpl; auto. Qed.

Lemma mapM_write {A} (p : string) (f : A -> string) (ls : list A)
    (acc : string) (m : files) :
  m !! p = Some acc ->
  mapM_ (fun t => write p (f t)) ls m
  = (inr tt, <[p := fold_left (fun a t => a +:+ f t) ls acc]> m).
Proof.
  revert acc m; induction ls as [|x ls IH]; intros acc m Hm; simpl.
  - f_equal. by rewrite insert_id.
  - unfold mbind, PyM_bind at 1; unfold write at 1; rewrite Hm; simpl.
    rewrite (IH (acc +:+ f x)) by (by rewrite lookup_insert_eq).
    by rewrite insert_insert_eq.
Qed.

Ltac step_write :=
  unfold mbind, PyM_bind at 1; unfold write at 1;
  rewrite lookup_insert_eq; simpl; rewrite insert_insert_eq.


Lemma str_app_assoc (a b c : string) : (a +:+ b) +:+ c = a +:+ (b +:+ c).
Proof.
  induction a as [|x a IH]; [reflexivity|]. exact (f_equal (String x) IH).
Qed.

Lemma str_app_nil_l (a : string) : "" +:+ a = a.
Proof. reflexivity. Qed.

Lemma export_ok float_str colormaps cmap_name field units min max n unique
    step trips (m : files) :
  prepare colormaps cmap_name min max n = inr (step, trips) ->
  export_cmap_as_pal_txt float_str colormaps cmap_name field units min max n
    unique m
  = (inr tt, <[pal_path cmap_name field :=
                 render (pal_lines float_str field units step (rev trips) unique)]> m).
Proof.
  unfold prepare, export_cmap_as_pal_txt; intros H.
  destruct (linspace min max n) as [e|[levels step']] eqn:El; [discriminate|].
  destruct (colormaps !! cmap_name) as [cmap|] eqn:Ec; [|discriminate].
  destruct (sample_loop cmap levels n (arange n)) as [e|trips'] eqn:Es;
    [discriminate|].
  injection H as <- <-.
  unfold mbind, PyM_bind; simpl; rewrite ?Ec; simpl; rewrite ?Es; simpl.
  set (p := pal_path cmap_name field).
  unfold open_w, write; simpl.
  repeat (rewrite ?lookup_insert_eq, ?insert_insert_eq; simpl).
  destruct (String.eqb field "CC") eqn:Ef; simpl;
  repeat (rewrite ?lookup_insert_eq, ?insert_insert_eq; simpl);
  (rewrite (mapM_write p (fun t => color_line t +:+ nl) _ _ _
              (lookup_insert_eq _ _ _)); simpl;
   rewrite insert_insert_eq;
   destruct unique; simpl;
   [rewrite lookup_insert_eq; simpl; rewrite insert_insert_eq|];
   unfold render, pal_lines, header_lines; simpl;
   rewrite ?fold_left_app, <-fold_left_map_app, Ef; simpl;
   rewrite ?str_app_assoc, ?str_app_nil_l; reflexivity).
Qed.

Lemma export_err float_str colormaps cmap_name field units min max n unique
    e (m : files) :
  prepare colormaps cmap_name min max n = inl e ->
  export_cmap_as_pal_txt float_str colormaps cmap_name field units min max n
    unique m = (inl e, m).
Proof.
  unfold prepare, export_cmap_as_pal_txt; intros H.
  destruct (linspace min max n) as [e'|[levels step']] eqn:El;
    [injection H as <-; reflexivity|].
  destruct (colormaps !! cmap_name) as [cmap|] eqn:Ec;
    [|injection H as <-; unfold mbind, PyM_bind; simpl; rewrite ?Ec; reflexivity].
  destruct (sample_loop cmap levels n (arange n)) as [e'|trips'] eqn:Es;
    [|discriminate].
  injection H as <-.
  unfold mbind, PyM_bind; simpl; rewrite ?Ec; simpl; rewrite ?Es; reflexivity.
Qed.

(** ** numpy.linspace, for [num >= 2] *)

Lemma length_arange n : length (arange n) = Z.to_nat n.
Proof. unfold arange. by rewrite length_map, length_seq. Qed.

Lemma lookup_map {A B} (f : A -> B) (l : list A) (i : nat) :
  map f l !! i = f <$> l !! i.
Proof. revert i; induction l as [|x l IH]; intros [|i]; simpl; auto. Qed.

Lemma lookup_arange n i :
  (i < Z.to_nat n)%nat -> arange n !! i = Some (Z.of_nat i).
Proof.
  intros Hi; unfold arange. rewrite lookup_map.
  assert (seq 0 (Z.to_nat n) !! i = Some i) as -> by (apply lookup_seq; lia).
  done.
Qed.

Lemma inject_Z_nonzero (z : Z) : z <> 0 -> ~ (inject_Z z == 0)%Q.
Proof. unfold Qeq; simpl; lia. Qed.

(** Every level is [start + i * step], the last one included. *)
Lemma linspace_spec (start stop : Q) (n : Z) :
  2 <= n ->
  exists levels,
    linspace start stop n
      = inr (levels, Some ((stop - start) / inject_Z (n - 1))%Q)
    /\ length levels = Z.to_nat n
    /\ forall i, (i < Z.to_nat n)%nat ->
       exists v, levels !! i = Some v
         /\ (v == start + inject_Z (Z.of_nat i)
                          * ((stop - start) / inject_Z (n - 1)))%Q.
Proof.
  intros Hn. unfold linspace.
  replace (n <? 0) with false by (symmetry; apply Z.ltb_ge; lia).
  replace (0 <? n - 1) with true by (symmetry; apply Z.ltb_lt; lia).
  replace (1 <? n) with true by (symmetry; apply Z.ltb_lt; lia).
  assert (Hd : ~ (inject_Z (n - 1) == 0)%Q) by (apply inject_Z_nonzero; lia).
  destruct (Qeq_bool _ 0) eqn:Hq; eexists; (split; [reflexivity|]);
    (split; [by rewrite length_insert, !length_map, length_arange|]);
    intros i Hi;
    (destruct (decide (i = Z.to_nat (n - 1))) as [->|Hne];
     [ eexists; split;
       [apply list_lookup_insert_eq; rewrite !length_map, length_arange; lia|];
       rewrite Z2Nat.id by lia; field; exact Hd
     | rewrite list_lookup_insert_ne by lia;
       rewrite !lookup_map, lookup_arange by done; simpl;
       eexists; split; [reflexivity|]; field; exact Hd ]).
Qed.

Lemma linspace_lookup (start stop : Q) (n : Z) levels step i v :
  2 <= n ->
  linspace start stop n = inr (levels, step) ->
  levels !! i = Some v ->
  step = Some ((stop - start) / inject_Z (n - 1))%Q
  /\ length levels = Z.to_nat n
  /\ (v == start + inject_Z (Z.of_nat i)
              * ((stop - start) / inject_Z (n - 1)))%Q.
Proof.
  intros Hn Hl Hv.
  destruct (linspace_spec start stop n Hn) as (levels' & Hl' & Hlen & Hat).
  rewrite Hl' in Hl; injection Hl as <- <-.
  split; [done|]; split; [done|].
  pose proof (lookup_lt_Some _ _ _ Hv) as Hi.
  destruct (Hat i ltac:(lia)) as (v' & Hv' & Heq).
  rewrite Hv in Hv'; injection Hv' as <-; exact Heq.
Qed.

(** Levels move in the direction of [stop - start], strictly. *)
Lemma linspace_monotone (start stop : Q) (n : Z) levels step i j v w :
  2 <= n ->
  linspace start stop n = inr (levels, step) ->
  (i < j)%nat -> levels !! i = Some v -> levels !! j = Some w ->
  ((start < stop -> v < w) /\ (stop < start -> w < v))%Q.
Proof.
  intros Hn Hl Hij Hv Hw.
  destruct (linspace_lookup _ _ _ _ _ _ _ Hn Hl Hv) as (_ & _ & Ev).
  destruct (linspace_lookup _ _ _ _ _ _ _ Hn Hl Hw) as (_ & _ & Ew).
  rewrite Ev, Ew.
  assert (Hd : (0 < inject_Z (n - 1))%Q) by (unfold Qlt; simpl; lia).
  assert (Hz : (inject_Z (Z.of_nat i) < inject_Z (Z.of_nat j))%Q)
    by (rewrite <-Zlt_Qlt; lia).
  split; intros Hs.
  - apply Qplus_lt_r.
    assert (Hp : (0 < (stop - start) / inject_Z (n - 1))%Q).
    { apply Qlt_shift_div_l; [done|]. rewrite Qmult_0_l.
      apply (Qplus_lt_l _ _ start). ring_simplify. done. }
    by apply Qmult_lt_r.
  - apply Qplus_lt_r.
    assert (Hp : (0 < (start - stop) / inject_Z (n - 1))%Q).
    { apply Qlt_shift_div_l; [done|]. rewrite Qmult_0_l.
      apply (Qplus_lt_l _ _ stop). ring_simplify. done. }
    assert (E : forall k : Q, (k * ((stop - start) / inject_Z (n - 1))
                 == - (k * ((start - stop) / inject_Z (n - 1))))%Q).
    { intros k. field. by apply Qnot_eq_sym, Qlt_not_eq. }
    rewrite !E. apply Qopp_lt_compat. by apply Qmult_lt_r.
Qed.

(** ** Sampling: [sample_loop] over valid indices *)

(** What the loop body computes at index [i]. *)
Definition sample_spec (cmap : colormap) (levels : list Q) (n : Z) (i : Z)
    (t : triplet) : Prop :=
  levels !! Z.to_nat i = Some (lvl t)
  /\ let '(r, g, b, _) := cmap (inject_Z i / inject_Z (n - 1))%Q in
     red t = py_int (r * 255) /\ green t = py_int (g * 255)
     /\ blue t = py_int (b * 255).

Lemma sample_loop_ok cmap levels n idx :
  n - 1 <> 0 ->
  Forall (fun i => (Z.to_nat i < length levels)%nat) idx ->
  exists trips, sample_loop cmap levels n idx = inr trips
    /\ Forall2 (sample_spec cmap levels n) idx trips.
Proof.
  intros Hn Hidx; induction Hidx as [|i idx Hi Hidx IH]; simpl.
  - by exists [].
  - unfold py_div. replace (n - 1 =? 0) with false by (symmetry; lia).
    destruct (cmap _) as [[[r g] b] a] eqn:Ec.
    destruct (lookup_lt_is_Some_2 _ _ Hi) as [lv Hlv]. rewrite Hlv.
    destruct IH as (trips & -> & Hall).
    eexists; split; [reflexivity|]. constructor; [|done].
    unfold sample_spec; simpl. rewrite Ec. done.
Qed.

Lemma Forall_arange n (P : Z -> Prop) :
  (forall i, (i < Z.to_nat n)%nat -> P (Z.of_nat i)) -> Forall P (arange n).
Proof.
  intros H. apply Forall_lookup_2. intros k i Hk.
  pose proof (lookup_lt_Some _ _ _ Hk) as Hlt. rewrite length_arange in Hlt.
  rewrite lookup_arange in Hk by done. injection Hk as <-. auto.
Qed.

(** [int(c*255)] stays in [[0, 255]] for a channel [c] in [[0, 1]]. *)
Lemma py_int_channel (c : Q) :
  (0 <= c <= 1)%Q -> 0 <= py_int (c * 255) <= 255.
Proof.
  destruct c as [a d]; unfold Qle, py_int; simpl; intros [H0 H1].
  rewrite Z.mul_1_r in *. rewrite Pos.mul_1_r.
  rewrite Z.quot_div_nonneg by lia.
  split; [apply Z.div_pos; lia|].
  apply Z.div_le_upper_bound; lia.
Qed.

(** ** The pure part of a call with a registered colormap and [nlevels >= 2] *)

Lemma prepare_spec colormaps cmap_name (min max : Q) n cmap :
  colormaps !! cmap_name = Some cmap -> 2 <= n ->
  exists levels trips,
    linspace min max n = inr (levels, Some ((max - min) / inject_Z (n - 1))%Q)
    /\ prepare colormaps cmap_name min max n
         = inr (Some ((max - min) / inject_Z (n - 1))%Q, trips)
    /\ length levels = Z.to_nat n
    /\ Forall2 (sample_spec cmap levels n) (arange n) trips.
Proof.
  intros Hc Hn.
  destruct (linspace_spec min max n Hn) as (levels & Hl & Hlen & _).
  destruct (sample_loop_ok cmap levels n (arange n)) as (trips & Hs & Hall).
  { lia. }
  { apply Forall_arange. intros i Hi. rewrite Nat2Z.id. lia. }
  exists levels, trips. unfold prepare. rewrite Hl, Hc, Hs. done.
Qed.

(** Entry [k] of the generated list pairs level [k] with sample [k]. *)
Lemma trips_lookup cmap levels n trips (k : nat) :
  Forall2 (sample_spec cmap levels n) (arange n) trips ->
  (k < Z.to_nat n)%nat ->
  exists t, trips !! k = Some t /\ sample_spec cmap levels n (Z.of_nat k) t.
Proof.
  intros Hall Hk.
  destruct (Forall2_lookup_l _ _ _ k (Z.of_nat k) Hall) as (t & Ht & Hspec).
  { by apply lookup_arange. }
  eauto.
Qed.

Lemma length_trips cmap levels n trips :
  Forall2 (sample_spec cmap levels n) (arange n) trips ->
  length trips = Z.to_nat n.
Proof. intros Hall. by rewrite <-(Forall2_length _ _ _ Hall), length_arange. Qed.

Lemma rev_lookup {A} (l : list A) i x :
  rev l !! i = Some x <-> l !! (length l - S i)%nat = Some x /\ (i < length l)%nat.
Proof.
  assert (rev l = reverse l) as -> by (unfold reverse; apply rev_alt).
  apply reverse_lookup_Some.
Qed.

(** The emitted list [rgb_triplets[::-1]] compared two by two. *)
Lemma emitted_levels cmap levels (min max : Q) n trips i j ti tj :
  2 <= n ->
  linspace min max n = inr (levels, Some ((max - min) / inject_Z (n - 1))%Q) ->
  Forall2 (sample_spec cmap levels n) (arange n) trips ->
  (i < j)%nat -> rev trips !! i = Some ti -> rev trips !! j = Some tj ->
  ((min < max -> lvl tj < lvl ti) /\ (max < min -> lvl ti < lvl tj))%Q.
Proof.
  intros Hn Hl Hall Hij Hi Hj.
  pose proof (length_trips _ _ _ _ Hall) as Hlen.
  apply rev_lookup in Hi as [Hi Hilt]; apply rev_lookup in Hj as [Hj Hjlt].
  destruct (trips_lookup _ _ _ _ (length trips - S i) Hall) as (ti' & Hti' & [Li _]);
    [lia|].
  destruct (trips_lookup _ _ _ _ (length trips - S j) Hall) as (tj' & Htj' & [Lj _]);
    [lia|].
  rewrite Hi in Hti'; injection Hti' as <-.
  rewrite Hj in Htj'; injection Htj' as <-.
  rewrite Nat2Z.id in Li, Lj.
  destruct (linspace_monotone min max n levels _ (length trips - S j)
              (length trips - S i) (lvl tj) (lvl ti) Hn Hl ltac:(lia) Lj Li).
  tauto.
Qed.

Lemma py_int_one (c : Q) : (c == 1)%Q -> py_int (c * 255) = 255.
Proof.
  destruct c as [a d]; unfold Qeq, py_int; simpl; intros H.
  rewrite Z.mul_1_r in H. rewrite Pos.mul_1_r, H.
  rewrite Z.mul_comm. apply Z.quot_mul. lia.
Qed.

Lemma py_int_zero (c : Q) : (c == 0)%Q -> py_int (c * 255) = 0.
Proof.
  destruct c as [a d]; unfold Qeq, py_int; simpl; intros H.
  rewrite Z.mul_1_r in H. rewrite H. apply Z.quot_0_l. lia.
Qed.

(** ** Lines of the file *)

Lemma str_app_cons c (p s : string) : String c p +:+ s = String c (p +:+ s).
Proof. reflexivity. Qed.

Lemma prefix_app (p s : string) : String.prefix p (p +:+ s) = true.
Proof.
  induction p as [|c p IH]; [by destruct s|].
  rewrite str_app_cons; simpl. destruct (ascii_dec c c); [done|congruence].
Qed.

Lemma prefix_ne (p s s' : string) :
  String.prefix p s = true -> String.prefix p s' = false -> s <> s'.
Proof. intros H1 H2 ->. congruence. Qed.

Lemma is_scale_or_step_other c (s : string) :
  c <> "S"%char -> is_scale_or_step (String c s) = false.
Proof.
  intros Hc; unfold is_scale_or_step; cbn [String.eqb String.prefix].
  rewrite (proj2 (Ascii.eqb_neq c "S"%char) Hc).
  destruct (ascii_dec "S" c); [congruence|done].
Qed.

Lemma color_lines_no_scale_or_step (emitted : list triplet) :
  List.filter is_scale_or_step (map color_line emitted) = [].
Proof.
  induction emitted as [|t emitted IH]; [done|]. cbn [List.filter map].
  unfold color_line at 1; rewrite str_app_cons, is_scale_or_step_other;
    [done|discriminate].
Qed.

Lemma prepare_linspace colormaps cmap_name min max n step trips :
  prepare colormaps cmap_name min max n = inr (step, trips) ->
  exists levels, linspace min max n = inr (levels, step).
Proof.
  unfold prepare. destruct (linspace min max n) as [e|[levels step']];
    [discriminate|].
  destruct (colormaps !! cmap_name); [|discriminate].
  destruct (sample_loop _ _ _ _); [discriminate|].
  intros H; injection H as <- <-. eauto.
Qed.

(** A successful call writes [pal_lines] for the step of [linspace]. *)
Lemma export_success float_str colormaps cmap_name field units min max n
    unique (m m' : files) :
  export_cmap_as_pal_txt float_str colormaps cmap_name field units min max n
    unique m = (inr tt, m') ->
  exists levels step trips,
    linspace min max n = inr (levels, step)
    /\ prepare colormaps cmap_name min max n = inr (step, trips)
    /\ m' = <[pal_path cmap_name field :=
               render (pal_lines float_str field units step (rev trips) unique)]> m.
Proof.
  destruct (prepare colormaps cmap_name min max n) as [e|[step trips]] eqn:Hp.
  - rewrite (export_err _ _ _ _ _ _ _ _ _ _ _ Hp). discriminate.
  - rewrite (export_ok _ _ _ _ _ _ _ _ _ _ _ _ Hp). intros H; injection H as <-.
    destruct (prepare_linspace _ _ _ _ _ _ _ Hp) as [levels Hl]. eauto 6.
Qed.

Lemma linspace_nonneg (start stop : Q) (n : Z) :
  0 <= n -> exists r, linspace start stop n = inr r.
Proof.
  intros Hn. unfold linspace.
  replace (n <? 0) with false by (symmetry; apply Z.ltb_ge; lia).
  destruct (0 <? n - 1); [destruct (Qeq_bool _ _)|]; eexists; reflexivity.
Qed.

(** * The claims *)

(** C1: for [min < max] and [nlevels >= 2], [np.linspace] yields exactly
    [nlevels] levels, strictly increasing, the first equal to [min], the
    last equal to [max], consecutive ones [step = (max-min)/(nlevels-1)]
    apart (exactly, floats being modelled as rationals). *)
Theorem linspace_levels_evenly_spaced (min max : Q) (nlevels : Z) :
  (min < max)%Q -> 2 <= nlevels ->
  exists levels step,
    linspace min max nlevels = inr (levels, Some step)
    /\ (step == (max - min) / inject_Z (nlevels - 1))%Q
    /\ length levels = Z.to_nat nlevels
    /\ (exists v, levels !! 0%nat = Some v /\ (v == min)%Q)
    /\ (exists v, levels !! (Z.to_nat nlevels - 1)%nat = Some v /\ (v == max)%Q)
    /\ (forall i v w, levels !! i = Some v -> levels !! S i = Some w ->
          (w - v == step)%Q)
    /\ (forall i j v w, (i < j)%nat -> levels !! i = Some v ->
          levels !! j = Some w -> (v < w)%Q).
Proof.
  intros Hlt Hn.
  destruct (linspace_spec min max nlevels Hn) as (levels & Hl & Hlen & Hat).
  exists levels, ((max - min) / inject_Z (nlevels - 1))%Q.
  assert (Hd : ~ (inject_Z (nlevels - 1) == 0)%Q)
    by (apply inject_Z_nonzero; lia).
  split; [done|]. split; [reflexivity|]. split; [done|].
  split.
  { destruct (Hat 0%nat ltac:(lia)) as (v & Hv & E). exists v.
    split; [done|]. rewrite E. simpl. ring. }
  split.
  { destruct (Hat (Z.to_nat nlevels - 1)%nat ltac:(lia)) as (v & Hv & E).
    exists v. split; [done|]. rewrite E.
    replace (Z.of_nat (Z.to_nat nlevels - 1)) with (nlevels - 1) by lia.
    field. exact Hd. }
  split.
  { intros i v w Hv Hw.
    destruct (linspace_lookup _ _ _ _ _ _ _ Hn Hl Hv) as (_ & _ & Ev).
    destruct (linspace_lookup _ _ _ _ _ _ _ Hn Hl Hw) as (_ & _ & Ew).
    rewrite Ev, Ew, Nat2Z.inj_succ, <-Z.add_1_r, inject_Z_plus. ring. }
  intros i j v w Hij Hv Hw.
  by apply (linspace_monotone _ _ _ _ _ _ _ _ _ Hn Hl Hij Hv Hw).
Qed.

(** C2: with a registered colormap and [nlevels >= 2], entry [i] of the
    generated list takes [levels[i]] and the colormap's sample at
    [t = i/(nlevels-1)], each channel scaled by 255 and truncated with
    [int]; channels in [[0,1]] give integers in [[0,255]], and a sample
    [(1.0, 0.0, 0.0)] gives [(255, 0, 0)]. *)
Theorem sample_channels_truncated colormaps cmap_name (min max : Q)
    (nlevels : Z) (cmap : colormap) :
  colormaps !! cmap_name = Some cmap -> 2 <= nlevels ->
  exists levels step trips,
    linspace min max nlevels = inr (levels, step)
    /\ prepare colormaps cmap_name min max nlevels = inr (step, trips)
    /\ length trips = Z.to_nat nlevels
    /\ forall (i : nat) (r g b a : Q), (i < Z.to_nat nlevels)%nat ->
         cmap (inject_Z (Z.of_nat i) / inject_Z (nlevels - 1))%Q = (r, g, b, a) ->
         exists t, trips !! i = Some t /\ levels !! i = Some (lvl t)
           /\ red t = py_int (r * 255) /\ green t = py_int (g * 255)
           /\ blue t = py_int (b * 255)
           /\ ((0 <= r <= 1)%Q -> 0 <= red t <= 255)
           /\ ((0 <= g <= 1)%Q -> 0 <= green t <= 255)
           /\ ((0 <= b <= 1)%Q -> 0 <= blue t <= 255)
           /\ ((r == 1 /\ g == 0 /\ b == 0)%Q ->
                 (red t, green t, blue t) = (255, 0, 0)).
Proof.
  intros Hc Hn.
  destruct (prepare_spec colormaps cmap_name min max nlevels cmap Hc Hn)
    as (levels & trips & Hl & Hp & Hlen & Hall).
  eexists levels, _, trips. split; [exact Hl|]. split; [exact Hp|].
  split; [exact (length_trips _ _ _ _ Hall)|].
  intros i r g b a Hi Hsample.
  destruct (trips_lookup _ _ _ _ i Hall Hi) as (t & Ht & Hlv & Hrgb).
  rewrite Hsample in Hrgb. destruct Hrgb as (Hr & Hg & Hb).
  rewrite Nat2Z.id in Hlv.
  exists t. rewrite Hr, Hg, Hb.
  do 5 (split; [done|]).
  split; [apply py_int_channel|]. split; [apply py_int_channel|].
  split; [apply py_int_channel|].
  intros (E1 & E2 & E3). by rewrite py_int_one, !py_int_zero.
Qed.

(** C3: a call with a registered colormap, [min < max] and [nlevels >= 2]
    succeeds and writes the Color lines of [rgb_triplets[::-1]], the
    generated entries in reverse order, whose levels strictly decrease. *)
Theorem export_colors_decreasing float_str colormaps cmap_name field units
    (min max : Q) (nlevels : Z) unique (cmap : colormap) (m : files) :
  colormaps !! cmap_name = Some cmap -> (min < max)%Q -> 2 <= nlevels ->
  exists step trips,
    prepare colormaps cmap_name min max nlevels = inr (step, trips)
    /\ export_cmap_as_pal_txt float_str colormaps cmap_name field units min max
         nlevels unique m
       = (inr tt, <[pal_path cmap_name field :=
            render (pal_lines float_str field units step (rev trips) unique)]> m)
    /\ length trips = Z.to_nat nlevels
    /\ forall i j ti tj, (i < j)%nat ->
         rev trips !! i = Some ti -> rev trips !! j = Some tj ->
         (lvl tj < lvl ti)%Q.
Proof.
  intros Hc Hlt Hn.
  destruct (prepare_spec colormaps cmap_name min max nlevels cmap Hc Hn)
    as (levels & trips & Hl & Hp & Hlen & Hall).
  eexists _, trips. split; [exact Hp|].
  split; [by apply export_ok|].
  split; [exact (length_trips _ _ _ _ Hall)|].
  intros i j ti tj Hij Hi Hj.
  by apply (emitted_levels cmap levels min max nlevels trips i j ti tj Hn Hl Hall).
Qed.

(** C10: with [min > max], [nlevels >= 2] and a registered colormap the
    call does not fail: it writes the file, and the Color lines then come
    in strictly increasing level order. *)
Theorem export_colors_increasing_inverted float_str colormaps cmap_name field
    units (min max : Q) (nlevels : Z) unique (cmap : colormap) (m : files) :
  colormaps !! cmap_name = Some cmap -> (max < min)%Q -> 2 <= nlevels ->
  exists step trips,
    prepare colormaps cmap_name min max nlevels = inr (step, trips)
    /\ export_cmap_as_pal_txt float_str colormaps cmap_name field units min max
         nlevels unique m
       = (inr tt, <[pal_path cmap_name field :=
            render (pal_lines float_str field units step (rev trips) unique)]> m)
    /\ length trips = Z.to_nat nlevels
    /\ forall i j ti tj, (i < j)%nat ->
         rev trips !! i = Some ti -> rev trips !! j = Some tj ->
         (lvl ti < lvl tj)%Q.
Proof.
  intros Hc Hlt Hn.
  destruct (prepare_spec colormaps cmap_name min max nlevels cmap Hc Hn)
    as (levels & trips & Hl & Hp & Hlen & Hall).
  eexists _, trips. split; [exact Hp|].
  split; [by apply export_ok|].
  split; [exact (length_trips _ _ _ _ Hall)|].
  intros i j ti tj Hij Hi Hj.
  by apply (emitted_levels cmap levels min max nlevels trips i j ti tj Hn Hl Hall).
Qed.

(** C4: a successful call writes exactly one line that is ["Scale: 100"]
    or starts with ["Step: "]: ["Scale: 100"] when [field = "CC"], else
    ["Step: " + str(step)] with [step] the step of [np.linspace].  Lines
    are the code's ['\n']-terminated writes. *)
Theorem export_header_scale_or_step float_str colormaps cmap_name field units
    (min max : Q) (nlevels : Z) unique (m m' : files) :
  export_cmap_as_pal_txt float_str colormaps cmap_name field units min max
    nlevels unique m = (inr tt, m') ->
  exists levels step emitted,
    linspace min max nlevels = inr (levels, step)
    /\ m' !! pal_path cmap_name field
       = Some (render (pal_lines float_str field units step emitted unique))
    /\ List.filter is_scale_or_step (pal_lines float_str field units step emitted unique)
       = (if String.eqb field "CC" then ["Scale: 100"]
          else ["Step: " +:+ py_str_float float_str step]).
Proof.
  intros H.
  destruct (export_success _ _ _ _ _ _ _ _ _ _ _ H)
    as (levels & step & trips & Hl & Hp & ->).
  exists levels, step, (rev trips). split; [done|].
  split; [by rewrite lookup_insert_eq|].
  unfold pal_lines, header_lines. rewrite !List.filter_app.
  rewrite color_lines_no_scale_or_step.
  assert (Hs : List.filter is_scale_or_step
                 (if unique then [sentinel_line] else []) = [])
    by (destruct unique; reflexivity).
  assert (H1 : is_scale_or_step ("Product: " +:+ field) = false)
    by (rewrite str_app_cons; apply is_scale_or_step_other; discriminate).
  assert (H2 : is_scale_or_step ("Units:   " +:+ units) = false)
    by (rewrite str_app_cons; apply is_scale_or_step_other; discriminate).
  assert (H3 : is_scale_or_step ("Step: " +:+ py_str_float float_str step)
               = true)
    by (unfold is_scale_or_step; by rewrite prefix_app, orb_true_r).
  rewrite Hs, !app_nil_r. cbn [List.filter app].
  rewrite H1, H2.
  destruct (String.eqb field "CC"); [reflexivity|].
  rewrite H3. reflexivity.
Qed.

(** C5: a successful call ends the file with exactly one [sentinel_line]
    (the "RF" line [Unique: 800 ... 119 0 125]) after the Color lines when
    [unique] is true, and writes no such line when it is false. *)
Theorem export_sentinel_line float_str colormaps cmap_name field units
    (min max : Q) (nlevels : Z) unique (m m' : files) :
  export_cmap_as_pal_txt float_str colormaps cmap_name field units min max
    nlevels unique m = (inr tt, m') ->
  exists step emitted,
    m' !! pal_path cmap_name field
      = Some (render (pal_lines float_str field units step emitted unique))
    /\ pal_lines float_str field units step emitted unique
       = (header_lines float_str field units step ++ map color_line emitted)
         ++ (if unique then [sentinel_line] else [])
    /\ ~ In sentinel_line (header_lines float_str field units step
                           ++ map color_line emitted).
Proof.
  intros H.
  destruct (export_success _ _ _ _ _ _ _ _ _ _ _ H)
    as (levels & step & trips & Hl & Hp & ->).
  exists step, (rev trips).
  split; [by rewrite lookup_insert_eq|].
  split; [unfold pal_lines; by rewrite app_assoc|].
  rewrite in_app_iff, in_map_iff. intros [Hin | (t & Ht & _)].
  - simpl in Hin.
    destruct Hin as [E | [E | [E | [E | []]]]].
    + revert E. apply (prefix_ne "Product: "); [apply prefix_app|reflexivity].
    + revert E. apply (prefix_ne "Units:   "); [apply prefix_app|reflexivity].
    + destruct (String.eqb field "CC").
      * revert E. apply (prefix_ne "Scale"); reflexivity.
      * revert E. apply (prefix_ne "Step: "); [apply prefix_app|reflexivity].
    + symmetry in E. revert E. apply (prefix_ne "U"); reflexivity.
  - revert Ht. apply (prefix_ne "Color: "); [apply prefix_app|reflexivity].
Qed.

(** C6: [export_cmap_as_pal_txt("testmap", "ZDR", "DB", -1., 5., 7, True)]
    with the grayscale colormap writes [./testmap_ZDR.pal]: the header
    [Product: ZDR], [Units:   DB], [Step: 1.0], a blank line, the levels
    [5.00] down to [-1.00] with their gray triplets, and the sentinel line;
    [str(1.0)] is ["1.0"]. *)
Theorem export_testmap_example float_str (m : files) :
  (forall q, (q == 1)%Q -> float_str q = "1.0") ->
  export_cmap_as_pal_txt float_str test_registry "testmap" "ZDR" "DB"
    (-1)%Q 5%Q 7 true m
  = (inr tt, <["./testmap_ZDR.pal" := render testmap_ZDR_lines]> m).
Proof.
  intros Hf.
  destruct (prepare test_registry "testmap" (-1)%Q 5%Q 7)
    as [e|[step trips]] eqn:Hp;
    [vm_compute in Hp; discriminate|].
  rewrite (export_ok _ _ _ _ _ _ _ _ _ _ _ _ Hp).
  vm_compute in Hp; injection Hp as <- <-.
  unfold pal_lines, header_lines, py_str_float.
  rewrite Hf by reflexivity.
  f_equal; f_equal; vm_compute; reflexivity.
Qed.

(** C7 (counterexample): [min = max] is not rejected; with [nlevels = 3]
    and a registered colormap the call succeeds and writes the file, and
    so does a call with [nlevels = 0]. *)
Lemma export_accepts_empty_range :
  fst (export_cmap_as_pal_txt py_float_repr test_registry "testmap" "ZDR"
         "DB" 1%Q 1%Q 3 true ∅) = inr tt
  /\ is_Some (snd (export_cmap_as_pal_txt py_float_repr test_registry
                    "testmap" "ZDR" "DB" 1%Q 1%Q 3 true ∅)
                !! "./testmap_ZDR.pal")
  /\ fst (export_cmap_as_pal_txt py_float_repr test_registry "testmap" "ZDR"
            "DB" (-1)%Q 5%Q 0 true ∅) = inr tt.
Proof. vm_compute. split; [reflexivity|]. split; [eexists; reflexivity|reflexivity]. Qed.

(** C7 (amended): the only failures are a negative [nlevels] ([ValueError]
    from [np.linspace]), an unregistered colormap name ([KeyError], for
    [nlevels >= 0]) and [nlevels = 1] ([ZeroDivisionError] at
    [i/(nlevels-1)]), each leaving the files untouched; with a registered
    colormap and [nlevels = 0] or [nlevels >= 2] the call succeeds whatever
    [min] and [max] are, [min >= max] included, and writes its file: the
    path [./<colormap>_<field>.pal] then holds the header, one Color line per
    level ([nlevels] of them) and the optional sentinel. *)
Theorem export_failure_cases float_str colormaps cmap_name field units
    (min max : Q) (nlevels : Z) unique (m : files) :
  (nlevels < 0 ->
     export_cmap_as_pal_txt float_str colormaps cmap_name field units min max
       nlevels unique m = (inl ValueError, m))
  /\ (0 <= nlevels -> colormaps !! cmap_name = None ->
        export_cmap_as_pal_txt float_str colormaps cmap_name field units min max
          nlevels unique m = (inl KeyError, m))
  /\ (forall cmap, colormaps !! cmap_name = Some cmap ->
        (nlevels = 1 ->
           export_cmap_as_pal_txt float_str colormaps cmap_name field units
             min max nlevels unique m = (inl ZeroDivisionError, m))
        /\ (nlevels = 0 \/ 2 <= nlevels ->
              exists step trips,
                prepare colormaps cmap_name min max nlevels = inr (step, trips)
                /\ length trips = Z.to_nat nlevels
                /\ export_cmap_as_pal_txt float_str colormaps cmap_name field
                     units min max nlevels unique m
                   = (inr tt, <[pal_path cmap_name field :=
                        render (pal_lines float_str field units step (rev trips)
                                  unique)]> m))).
Proof.
  split; [|split].
  - intros Hn. apply export_err. unfold prepare, linspace.
    replace (nlevels <? 0) with true by (symmetry; apply Z.ltb_lt; lia).
    reflexivity.
  - intros Hn Hc. apply export_err. unfold prepare.
    destruct (linspace_nonneg min max nlevels Hn) as [[levels step] ->].
    by rewrite Hc.
  - intros cmap Hc. split.
    + intros ->. apply export_err. unfold prepare. simpl. by rewrite Hc.
    + intros [-> | Hn].
      * assert (Hp : prepare colormaps cmap_name min max 0 = inr (None, []))
          by (unfold prepare; simpl; by rewrite Hc).
        exists None, []. split; [exact Hp|]. split; [reflexivity|].
        exact (export_ok _ _ _ _ _ _ _ _ _ _ _ _ Hp).
      * destruct (prepare_spec colormaps cmap_name min max nlevels cmap Hc Hn)
          as (levels & trips & _ & Hp & _ & Hall).
        eexists _, trips. split; [exact Hp|].
        split; [exact (length_trips _ _ _ _ Hall)|].
        exact (export_ok _ _ _ _ _ _ _ _ _ _ _ _ Hp).
Qed.

(** C8: a call that fails leaves every file as it was: the failure comes
    before [open] (the only failures are those of C7). *)
Theorem export_error_leaves_files float_str colormaps cmap_name field units
    (min max : Q) (nlevels : Z) unique e (m m' : files) :
  export_cmap_as_pal_txt float_str colormaps cmap_name field units min max
    nlevels unique m = (inl e, m') ->
  m' = m.
Proof.
  destruct (prepare colormaps cmap_name min max nlevels) as [e'|[step trips]] eqn:Hp.
  - rewrite (export_err _ _ _ _ _ _ _ _ _ _ _ Hp). intros H. by injection H.
  - rewrite (export_ok _ _ _ _ _ _ _ _ _ _ _ _ Hp). discriminate.
Qed.

(** C9: running the same call twice leaves the same files as running it
    once; in particular the output file has the same contents. *)
Theorem export_repeat_same_files float_str colormaps cmap_name field units
    (min max : Q) (nlevels : Z) unique (m : files) :
  let run := export_cmap_as_pal_txt float_str colormaps cmap_name field units
               min max nlevels unique in
  snd (run (snd (run m))) = snd (run m)
  /\ snd (run (snd (run m))) !! pal_path cmap_name field
     = snd (run m) !! pal_path cmap_name field.
Proof.
  intros run. unfold run.
  destruct (prepare colormaps cmap_name min max nlevels) as [e|[step trips]] eqn:Hp.
  - rewrite !(export_err _ _ _ _ _ _ _ _ _ _ _ Hp). done.
  - rewrite !(export_ok _ _ _ _ _ _ _ _ _ _ _ _ Hp). simpl.
    by rewrite insert_insert_eq.
Qed.

(** * Witnesses: the hypotheses of the claims hold on concrete calls *)

Lemma linspace_levels_evenly_spaced_witness :
  (-1 < 5)%Q /\ 2 <= 7
  /\ exists levels step,
       linspace (-1)%Q 5%Q 7 = inr (levels, Some step) /\ length levels = 7%nat.
Proof.
  split; [reflexivity|]. split; [lia|].
  destruct (linspace_levels_evenly_spaced (-1)%Q 5%Q 7 ltac:(reflexivity)
              ltac:(lia)) as (levels & step & H1 & _ & H3 & _).
  exists levels, step. split; [exact H1|exact H3].
Defined.

Lemma sample_channels_truncated_witness :
  test_registry !! "testmap" = Some gray /\ 2 <= 7
  /\ exists levels step trips,
       prepare test_registry "testmap" (-1)%Q 5%Q 7 = inr (step, trips)
       /\ length trips = 7%nat /\ linspace (-1)%Q 5%Q 7 = inr (levels, step).
Proof.
  split; [reflexivity|]. split; [lia|].
  destruct (sample_channels_truncated test_registry "testmap" (-1)%Q 5%Q 7 gray
              ltac:(reflexivity) ltac:(lia))
    as (levels & step & trips & H1 & H2 & H3 & _).
  exists levels, step, trips. split; [exact H2|]. split; [exact H3|exact H1].
Defined.

Lemma export_colors_decreasing_witness :
  test_registry !! "testmap" = Some gray /\ (-1 < 5)%Q /\ 2 <= 7
  /\ exists step trips,
       prepare test_registry "testmap" (-1)%Q 5%Q 7 = inr (step, trips)
       /\ length trips = 7%nat.
Proof.
  split; [reflexivity|]. split; [reflexivity|]. split; [lia|].
  destruct (export_colors_decreasing py_float_repr test_registry "testmap"
              "ZDR" "DB" (-1)%Q 5%Q 7 true gray ∅ ltac:(reflexivity)
              ltac:(reflexivity) ltac:(lia))
    as (step & trips & H1 & _ & H3 & _).
  exists step, trips. split; [exact H1|exact H3].
Defined.

Lemma export_colors_increasing_inverted_witness :
  test_registry !! "testmap" = Some gray /\ (-1 < 5)%Q /\ 2 <= 7
  /\ exists step trips,
       prepare test_registry "testmap" 5%Q (-1)%Q 7 = inr (step, trips)
       /\ length trips = 7%nat.
Proof.
  split; [reflexivity|]. split; [reflexivity|]. split; [lia|].
  destruct (export_colors_increasing_inverted py_float_repr test_registry
              "testmap" "ZDR" "DB" 5%Q (-1)%Q 7 true gray ∅ ltac:(reflexivity)
              ltac:(reflexivity) ltac:(lia))
    as (step & trips & H1 & _ & H3 & _).
  exists step, trips. split; [exact H1|exact H3].
Defined.

Lemma export_header_scale_or_step_witness :
  export_cmap_as_pal_txt py_float_repr test_registry "testmap"
    "CC" "Unitless" 20%Q 100%Q 3 true ∅
  = (inr tt, snd (export_cmap_as_pal_txt py_float_repr test_registry "testmap"
    "CC" "Unitless" 20%Q 100%Q 3 true ∅))
  /\ exists levels step, linspace 20%Q 100%Q 3 = inr (levels, step).
Proof.
  assert (H : export_cmap_as_pal_txt py_float_repr test_registry "testmap"
    "CC" "Unitless" 20%Q 100%Q 3 true ∅
              = (inr tt, snd (export_cmap_as_pal_txt py_float_repr test_registry "testmap"
    "CC" "Unitless" 20%Q 100%Q 3 true ∅)))
    by (vm_compute; reflexivity).
  split; [exact H|].
  destruct (export_header_scale_or_step py_float_repr test_registry "testmap"
    "CC" "Unitless" 20%Q 100%Q 3 true ∅ _ H)
    as (levels & step & emitted & Hl & _).
  exists levels, step. exact Hl.
Defined.

Lemma export_sentinel_line_witness :
  export_cmap_as_pal_txt py_float_repr test_registry "testmap"
    "BR" "DBZ" (-25)%Q 75%Q 3 false ∅
  = (inr tt, snd (export_cmap_as_pal_txt py_float_repr test_registry "testmap"
    "BR" "DBZ" (-25)%Q 75%Q 3 false ∅))
  /\ exists step emitted,
       snd (export_cmap_as_pal_txt py_float_repr test_registry "testmap"
    "BR" "DBZ" (-25)%Q 75%Q 3 false ∅) !! pal_path "testmap" "BR"
       = Some (render (pal_lines py_float_repr "BR" "DBZ" step emitted false)).
Proof.
  assert (H : export_cmap_as_pal_txt py_float_repr test_registry "testmap"
    "BR" "DBZ" (-25)%Q 75%Q 3 false ∅
              = (inr tt, snd (export_cmap_as_pal_txt py_float_repr test_registry "testmap"
    "BR" "DBZ" (-25)%Q 75%Q 3 false ∅)))
    by (vm_compute; reflexivity).
  split; [exact H|].
  destruct (export_sentinel_line py_float_repr test_registry "testmap"
    "BR" "DBZ" (-25)%Q 75%Q 3 false ∅ _ H)
    as (step & emitted & H1 & _).
  exists step, emitted. exact H1.
Defined.

Lemma export_testmap_example_witness :
  (forall q, (q == 1)%Q -> py_float_repr q = "1.0")
  /\ export_cmap_as_pal_txt py_float_repr test_registry "testmap" "ZDR" "DB"
       (-1)%Q 5%Q 7 true ∅
     = (inr tt, <["./testmap_ZDR.pal" := render testmap_ZDR_lines]> ∅).
Proof.
  assert (H : forall q, (q == 1)%Q -> py_float_repr q = "1.0").
  { intros q Hq. unfold py_float_repr. rewrite (Qred_complete q 1 Hq).
    reflexivity. }
  split; [exact H|].
  exact (export_testmap_example py_float_repr ∅ H).
Defined.

Lemma export_failure_cases_witness :
  export_cmap_as_pal_txt py_float_repr test_registry "testmap" "ZDR" "DB"
    (-1)%Q 5%Q (-1) true {[ "./keep.pal" := "k" ]}
    = (inl ValueError, {[ "./keep.pal" := "k" ]})
  /\ export_cmap_as_pal_txt py_float_repr test_registry "nope" "ZDR" "DB"
       (-1)%Q 5%Q 7 true ∅ = (inl KeyError, ∅)
  /\ export_cmap_as_pal_txt py_float_repr test_registry "testmap" "ZDR" "DB"
       (-1)%Q 5%Q 1 true ∅ = (inl ZeroDivisionError, ∅)
  /\ (exists step trips,
        prepare test_registry "testmap" 5%Q 5%Q 0 = inr (step, trips)
        /\ length trips = 0%nat
        /\ export_cmap_as_pal_txt py_float_repr test_registry "testmap" "ZDR"
             "DB" 5%Q 5%Q 0 true ∅
           = (inr tt, <[pal_path "testmap" "ZDR" :=
                render (pal_lines py_float_repr "ZDR" "DB" step (rev trips)
                          true)]> ∅))
  /\ (exists step trips,
        prepare test_registry "testmap" 5%Q (-1)%Q 3 = inr (step, trips)
        /\ length trips = 3%nat
        /\ export_cmap_as_pal_txt py_float_repr test_registry "testmap" "ZDR"
             "DB" 5%Q (-1)%Q 3 true ∅
           = (inr tt, <[pal_path "testmap" "ZDR" :=
                render (pal_lines py_float_repr "ZDR" "DB" step (rev trips)
                          true)]> ∅)).
Proof.
  split; [apply (proj1 (export_failure_cases py_float_repr test_registry
                          "testmap" "ZDR" "DB" (-1)%Q 5%Q (-1) true
                          {[ "./keep.pal" := "k" ]})); lia|].
  split; [apply (proj1 (proj2 (export_failure_cases py_float_repr test_registry
                                 "nope" "ZDR" "DB" (-1)%Q 5%Q 7 true ∅)));
          [lia|reflexivity]|].
  split; [apply (proj1 (proj2 (proj2 (export_failure_cases py_float_repr
             test_registry "testmap" "ZDR" "DB" (-1)%Q 5%Q 1 true ∅))
             gray eq_refl)); reflexivity|].
  split.
  - apply (proj2 (proj2 (proj2 (export_failure_cases py_float_repr
             test_registry "testmap" "ZDR" "DB" 5%Q 5%Q 0 true ∅))
             gray eq_refl)). left; reflexivity.
  - apply (proj2 (proj2 (proj2 (export_failure_cases py_float_repr
             test_registry "testmap" "ZDR" "DB" 5%Q (-1)%Q 3 true ∅))
             gray eq_refl)). right; lia.
Defined.

Lemma export_error_leaves_files_witness :
  export_cmap_as_pal_txt py_float_repr test_registry "testmap" "ZDR" "DB"
    (-1)%Q 5%Q 1 true ∅ = (inl ZeroDivisionError, ∅)
  /\ (∅ : files) = ∅.
Proof.
  assert (H : export_cmap_as_pal_txt py_float_repr test_registry "testmap" "ZDR"
                "DB" (-1)%Q 5%Q 1 true ∅ = (inl ZeroDivisionError, ∅))
    by (vm_compute; reflexivity).
  split; [exact H|].
  exact (export_error_leaves_files py_float_repr test_registry "testmap" "ZDR"
           "DB" (-1)%Q 5%Q 1 true ZeroDivisionError ∅ ∅ H).
Defined.

(** * Further properties of [export_cmap_as_pal_txt] *)

Lemma sample_loop_length cmap levels n idx trips :
  sample_loop cmap levels n idx = inr trips -> length trips = length idx.
Proof.
  revert trips; induction idx as [|i idx IH]; intros trips; simpl.
  - by intros [= <-].
  - destruct (py_div i (n - 1)); [discriminate|].
    destruct (cmap _) as [[[r g] b] a].
    destruct (levels !! Z.to_nat i); [|discriminate].
    destruct (sample_loop cmap levels n idx) as [e|rest]; [discriminate|].
    intros [= <-]. simpl. by rewrite (IH rest).
Qed.

Lemma prepare_length colormaps cmap_name min max n step trips :
  prepare colormaps cmap_name min max n = inr (step, trips) ->
  length trips = Z.to_nat n.
Proof.
  unfold prepare. destruct (linspace min max n) as [e|[levels step']];
    [discriminate|].
  destruct (colormaps !! cmap_name); [|discriminate].
  destruct (sample_loop _ _ _ _) eqn:Hs; [discriminate|].
  intros [= _ Ht]. subst trips.
  by rewrite (sample_loop_length _ _ _ _ _ Hs), length_arange.
Qed.

Lemma prefix_head_ne c c' (p s : string) :
  c <> c' -> String.prefix (String c p) (String c' s) = false.
Proof. intros H. simpl. destruct (ascii_dec c c'); [congruence|done]. Qed.

Lemma color_prefix_count (emitted : list triplet) :
  length (List.filter (String.prefix "Color: ") (map color_line emitted))
  = length emitted.
Proof.
  induction emitted as [|t emitted IH]; [done|]. cbn [List.filter map].
  unfold color_line at 1. rewrite prefix_app. simpl. by rewrite IH.
Qed.

(** A successful call changes no file other than
    [./<colormap>_<field>.pal]. *)
Theorem export_frame float_str colormaps cmap_name field units (min max : Q)
    (nlevels : Z) unique (m m' : files) (p : string) :
  export_cmap_as_pal_txt float_str colormaps cmap_name field units min max
    nlevels unique m = (inr tt, m') ->
  p <> pal_path cmap_name field ->
  m' !! p = m !! p.
Proof.
  intros H Hp.
  destruct (export_success _ _ _ _ _ _ _ _ _ _ _ H) as (lv & st & tr & _ & _ & Hm).
  subst m'. by rewrite lookup_insert_ne by congruence.
Qed.

(** What a successful call writes does not depend on the files already
    there: an existing output file is overwritten, whatever it held. *)
Theorem export_overwrites float_str colormaps cmap_name field units
    (min max : Q) (nlevels : Z) unique (m1 m1' : files) :
  export_cmap_as_pal_txt float_str colormaps cmap_name field units min max
    nlevels unique m1 = (inr tt, m1') ->
  exists c, m1' = <[pal_path cmap_name field := c]> m1
    /\ forall m2 : files,
         export_cmap_as_pal_txt float_str colormaps cmap_name field units min
           max nlevels unique m2 = (inr tt, <[pal_path cmap_name field := c]> m2).
Proof.
  intros H.
  destruct (export_success _ _ _ _ _ _ _ _ _ _ _ H)
    as (levels & step & trips & _ & Hp & ->).
  eexists; split; [reflexivity|]. intros m2. by apply export_ok.
Qed.

(** A successful file has 4 header lines, [nlevels] Color lines and the
    optional sentinel line, and exactly [nlevels] lines start with
    ["Color: "]. *)
Theorem export_line_counts float_str colormaps cmap_name field units
    (min max : Q) (nlevels : Z) unique (m m' : files) :
  export_cmap_as_pal_txt float_str colormaps cmap_name field units min max
    nlevels unique m = (inr tt, m') ->
  exists step emitted,
    m' !! pal_path cmap_name field
      = Some (render (pal_lines float_str field units step emitted unique))
    /\ length (pal_lines float_str field units step emitted unique)
       = (4 + Z.to_nat nlevels + (if unique then 1 else 0))%nat
    /\ length (List.filter (String.prefix "Color: ")
                 (pal_lines float_str field units step emitted unique))
       = Z.to_nat nlevels.
Proof.
  intros H.
  destruct (export_success _ _ _ _ _ _ _ _ _ _ _ H)
    as (levels & step & trips & _ & Hp & ->).
  pose proof (prepare_length _ _ _ _ _ _ _ Hp) as Hlen.
  exists step, (rev trips).
  split; [by rewrite lookup_insert_eq|].
  unfold pal_lines, header_lines.
  split.
  { rewrite !length_app, length_map, length_rev, Hlen.
    destruct unique; simpl; lia. }
  rewrite !List.filter_app, !length_app, color_prefix_count, length_rev, Hlen.
  assert (Hs : List.filter (String.prefix "Color: ")
                 (if unique then [sentinel_line] else []) = [])
    by (destruct unique; reflexivity).
  rewrite Hs. cbn [List.filter].
  rewrite (str_app_cons "P"), (str_app_cons "U"), !prefix_head_ne by discriminate.
  destruct (String.eqb field "CC").
  - simpl. lia.
  - rewrite (str_app_cons "S"), prefix_head_ne by discriminate. simpl. lia.
Qed.

(** The top Color line of a file pairs [max] with the colormap's color at
    [1.0], the bottom one pairs [min] with its color at [0.0]. *)
Theorem export_endpoint_colors float_str colormaps cmap_name field units
    (min max : Q) (nlevels : Z) unique (cmap : colormap) (m : files) :
  colormaps !! cmap_name = Some cmap -> 2 <= nlevels ->
  exists step trips tfirst tlast,
    export_cmap_as_pal_txt float_str colormaps cmap_name field units min max
      nlevels unique m
    = (inr tt, <[pal_path cmap_name field :=
         render (pal_lines float_str field units step (rev trips) unique)]> m)
    /\ rev trips !! 0%nat = Some tfirst
    /\ rev trips !! (Z.to_nat nlevels - 1)%nat = Some tlast
    /\ (lvl tfirst == max)%Q /\ (lvl tlast == min)%Q
    /\ (exists t r g b a, (t == 1)%Q /\ cmap t = (r, g, b, a)
          /\ red tfirst = py_int (r * 255) /\ green tfirst = py_int (g * 255)
          /\ blue tfirst = py_int (b * 255))
    /\ (exists t r g b a, (t == 0)%Q /\ cmap t = (r, g, b, a)
          /\ red tlast = py_int (r * 255) /\ green tlast = py_int (g * 255)
          /\ blue tlast = py_int (b * 255)).
Proof.
  intros Hc Hn.
  destruct (prepare_spec colormaps cmap_name min max nlevels cmap Hc Hn)
    as (levels & trips & Hl & Hp & Hlen & Hall).
  pose proof (length_trips _ _ _ _ Hall) as Htl.
  assert (Hd : ~ (inject_Z (nlevels - 1) == 0)%Q)
    by (apply inject_Z_nonzero; lia).
  destruct (trips_lookup _ _ _ _ (Z.to_nat nlevels - 1) Hall ltac:(lia))
    as (tf & Htf & Lf & Sf).
  destruct (trips_lookup _ _ _ _ 0 Hall ltac:(lia)) as (tl & Htl0 & Ll & Sl).
  exists (Some ((max - min) / inject_Z (nlevels - 1))%Q), trips, tf, tl.
  split; [by apply export_ok|].
  split; [apply rev_lookup; split; [by rewrite Htl|lia]|].
  split; [apply rev_lookup; split; [rewrite Htl; by replace (Z.to_nat nlevels - S (Z.to_nat nlevels - 1))%nat with 0%nat by lia|lia]|].
  rewrite Nat2Z.id in Lf, Ll.
  destruct (linspace_lookup _ _ _ _ _ _ _ Hn Hl Lf) as (_ & _ & Ef).
  destruct (linspace_lookup _ _ _ _ _ _ _ Hn Hl Ll) as (_ & _ & El).
  replace (Z.of_nat (Z.to_nat nlevels - 1)) with (nlevels - 1) in * by lia.
  split; [rewrite Ef; field; exact Hd|].
  split; [rewrite El; simpl; ring|].
  split.
  - destruct (cmap (inject_Z (nlevels - 1) / inject_Z (nlevels - 1))%Q)
      as [[[r g] b] a] eqn:Ec.
    exists (inject_Z (nlevels - 1) / inject_Z (nlevels - 1))%Q, r, g, b, a.
    split; [field; exact Hd|]. split; [exact Ec|]. exact Sf.
  - change (Z.of_nat 0) with 0 in Sl.
    destruct (cmap (inject_Z 0 / inject_Z (nlevels - 1))%Q)
      as [[[r g] b] a] eqn:Ec.
    exists (inject_Z 0 / inject_Z (nlevels - 1))%Q, r, g, b, a.
    split; [field; exact Hd|]. split; [exact Ec|]. exact Sl.
Qed.

(** With [nlevels = 0] and a registered colormap the call succeeds and
    writes only the header, with step [nan], and the optional sentinel. *)
Theorem export_zero_levels float_str colormaps cmap_name field units
    (min max : Q) unique (cmap : colormap) (m : files) :
  colormaps !! cmap_name = Some cmap ->
  export_cmap_as_pal_txt float_str colormaps cmap_name field units min max 0
    unique m
  = (inr tt, <[pal_path cmap_name field :=
       render (header_lines float_str field units None
               ++ (if unique then [sentinel_line] else []))]> m).
Proof.
  intros Hc.
  assert (Hp : prepare colormaps cmap_name min max 0 = inr (None, []))
    by (unfold prepare; simpl; by rewrite Hc).
  by rewrite (export_ok _ _ _ _ _ _ _ _ _ _ _ _ Hp).
Qed.

(** With [min = max] (and [nlevels >= 2]) the step is 0 and every
    generated entry has the level [min]. *)
Theorem export_equal_bounds colormaps cmap_name (min : Q) (nlevels : Z)
    (cmap : colormap) :
  colormaps !! cmap_name = Some cmap -> 2 <= nlevels ->
  exists step trips,
    prepare colormaps cmap_name min min nlevels = inr (Some step, trips)
    /\ (step == 0)%Q
    /\ length trips = Z.to_nat nlevels
    /\ Forall (fun t => (lvl t == min)%Q) trips.
Proof.
  intros Hc Hn.
  destruct (prepare_spec colormaps cmap_name min min nlevels cmap Hc Hn)
    as (levels & trips & Hl & Hp & Hlen & Hall).
  assert (Hd : ~ (inject_Z (nlevels - 1) == 0)%Q)
    by (apply inject_Z_nonzero; lia).
  eexists _, trips. split; [exact Hp|].
  split; [field; exact Hd|].
  split; [exact (length_trips _ _ _ _ Hall)|].
  apply Forall_lookup_2. intros k t Ht.
  pose proof (lookup_lt_Some _ _ _ Ht) as Hk.
  rewrite (length_trips _ _ _ _ Hall) in Hk.
  destruct (trips_lookup _ _ _ _ k Hall Hk) as (t' & Ht' & Lt & _).
  rewrite Ht in Ht'. injection Ht' as <-. rewrite Nat2Z.id in Lt.
  destruct (linspace_lookup _ _ _ _ _ _ _ Hn Hl Lt) as (_ & _ & E).
  rewrite E. field. exact Hd.
Qed.

(** [%4d] on [0 .. 255] is exactly four characters wide. *)
Lemma fmt_4d_width (z : Z) : 0 <= z <= 255 -> String.length (fmt_4d z) = 4%nat.
Proof.
  intros Hz.
  assert (H : forallb (fun k => Nat.eqb (String.length (fmt_4d (Z.of_nat k))) 4)
                (seq 0 256) = true) by (vm_compute; reflexivity).
  rewrite forallb_forall in H.
  specialize (H (Z.to_nat z) ltac:(apply in_seq; lia)).
  rewrite Z2Nat.id in H by lia. by apply Nat.eqb_eq.
Qed.

(** With a colormap whose channels lie in [[0, 1]], the three RGB fields of
    every Color line are exactly four characters wide. *)
Theorem export_channel_columns colormaps cmap_name (min max : Q)
    (nlevels : Z) (cmap : colormap) :
  colormaps !! cmap_name = Some cmap -> 2 <= nlevels ->
  (forall t r g b a, cmap t = (r, g, b, a) ->
     (0 <= r <= 1 /\ 0 <= g <= 1 /\ 0 <= b <= 1)%Q) ->
  exists step trips,
    prepare colormaps cmap_name min max nlevels = inr (step, trips)
    /\ Forall (fun t => String.length (fmt_4d (red t)) = 4%nat
                        /\ String.length (fmt_4d (green t)) = 4%nat
                        /\ String.length (fmt_4d (blue t)) = 4%nat) trips.
Proof.
  intros Hc Hn Hrange.
  destruct (prepare_spec colormaps cmap_name min max nlevels cmap Hc Hn)
    as (levels & trips & Hl & Hp & Hlen & Hall).
  eexists _, trips. split; [exact Hp|].
  apply Forall_lookup_2. intros k t Ht.
  pose proof (lookup_lt_Some _ _ _ Ht) as Hk.
  rewrite (length_trips _ _ _ _ Hall) in Hk.
  destruct (trips_lookup _ _ _ _ k Hall Hk) as (t' & Ht' & _ & S).
  rewrite Ht in Ht'. injection Ht' as <-.
  destruct (cmap _) as [[[r g] b] a] eqn:Ec.
  destruct (Hrange _ _ _ _ _ Ec) as (Hr & Hg & Hb).
  destruct S as (-> & -> & ->).
  split; [|split]; apply fmt_4d_width, py_int_channel; assumption.
Qed.

(** A sequence of successful calls writing pairwise distinct paths leaves
    each path with the content its own call wrote. *)
Lemma run_calls_ok float_str colormaps (l : list call) (m : files) :
  NoDup (map call_path l) ->
  (forall c, In c l -> exists step trips,
     prepare colormaps (cl_colormap c) (cl_min c) (cl_max c) (cl_nlevels c)
     = inr (step, trips)) ->
  exists m', mapM_ (run_call float_str colormaps) l m = (inr tt, m')
  /\ (forall c, In c l -> exists step trips,
        prepare colormaps (cl_colormap c) (cl_min c) (cl_max c) (cl_nlevels c)
        = inr (step, trips)
        /\ m' !! call_path c
           = Some (render (pal_lines float_str (cl_field c) (cl_units c) step
                             (rev trips) (cl_unique c))))
  /\ (forall p, p ∉ map call_path l -> m' !! p = m !! p).
Proof.
  revert m. induction l as [|c l IH]; intros m Hnd Hp.
  - exists m. split; [reflexivity|]. split; [by intros ? []|done].
  - inversion Hnd as [|? ? Hni Hnd']; subst.
    destruct (Hp c (or_introl eq_refl)) as (step & trips & Hc).
    destruct (IH (<[call_path c := render (pal_lines float_str (cl_field c)
                    (cl_units c) step (rev trips) (cl_unique c))]> m) Hnd'
                (fun c' H => Hp c' (or_intror H))) as (m' & Hrun & Hin & Hout).
    exists m'. split.
    + cbn [mapM_]. unfold mbind, PyM_bind, run_call at 1.
      rewrite (export_ok _ _ _ _ _ _ _ _ _ _ _ _ Hc). exact Hrun.
    + split.
      * intros c' [Hce|Hc']; [subst c'|].
        -- exists step, trips. split; [exact Hc|].
           rewrite Hout by exact Hni. apply lookup_insert_eq.
        -- by apply Hin.
      * intros p Hpn. rewrite Hout by (intros H; apply Hpn; by right).
        apply lookup_insert_ne. intros Heq. apply Hpn. rewrite <- Heq. by left.
Qed.

Lemma example_calls_nlevels c : In c example_calls -> 2 <= cl_nlevels c.
Proof. intros Hc. repeat destruct Hc as [<-|Hc]; simpl; lia || done. Qed.

Lemma example_paths_distinct : NoDup (map call_path example_calls).
Proof. apply (bool_decide_unpack _). vm_compute. reflexivity. Qed.

(** With every colormap it names registered, the module body runs to the
    end: each of the seven calls writes its own file, with the content of
    that call, and no other file changes. *)
Theorem run_examples_ok float_str colormaps (m : files) :
  (forall c, In c example_calls -> is_Some (colormaps !! cl_colormap c)) ->
  exists m', run_examples float_str colormaps m = (inr tt, m')
  /\ (forall c, In c example_calls -> exists step trips,
        prepare colormaps (cl_colormap c) (cl_min c) (cl_max c) (cl_nlevels c)
        = inr (step, trips)
        /\ m' !! call_path c
           = Some (render (pal_lines float_str (cl_field c) (cl_units c) step
                             (rev trips) (cl_unique c))))
  /\ (forall p, p ∉ map call_path example_calls -> m' !! p = m !! p).
Proof.
  intros Hreg. apply run_calls_ok; [exact example_paths_distinct|].
  intros c Hc. destruct (Hreg c Hc) as [cmap Hcm].
  destruct (prepare_spec colormaps (cl_colormap c) (cl_min c) (cl_max c)
              (cl_nlevels c) cmap Hcm (example_calls_nlevels c Hc))
    as (levels & trips & _ & Hp & _).
  by eexists _, trips.
Qed.

(** The correlation-coefficient call of the module body writes the line
    [Scale: 100] itself, third in its file. *)
Theorem run_examples_cc_scale float_str colormaps (m : files) :
  (forall c, In c example_calls -> is_Some (colormaps !! cl_colormap c)) ->
  exists m' rest, run_examples float_str colormaps m = (inr tt, m')
  /\ m' !! "./pyart_HomeyerRainbow_CC.pal"
     = Some (render (["Product: CC"; "Units:   Unitless"; "Scale: 100"; ""]
                     ++ rest)).
Proof.
  intros Hreg.
  destruct (run_calls_ok float_str colormaps example_calls m
              example_paths_distinct) as (m' & Hrun & Hin & _).
  { intros c Hc. destruct (Hreg c Hc) as [cmap Hcm].
    destruct (prepare_spec colormaps (cl_colormap c) (cl_min c) (cl_max c)
                (cl_nlevels c) cmap Hcm (example_calls_nlevels c Hc))
      as (levels & trips & _ & Hp & _).
    by eexists _, trips. }
  destruct (Hin (mk_call "pyart_HomeyerRainbow" "CC" "Unitless" 20 100 9 true))
    as (step & trips & _ & Hl).
  { simpl. tauto. }
  exists m', (map color_line (rev trips) ++ [sentinel_line]).
  split; [exact Hrun|]. exact Hl.
Qed.

Lemma run_call_uniform float_str colormaps (c : call) (m m' : files) :
  run_call float_str colormaps c m = (inr tt, m') ->
  exists s, m' = <[call_path c := s]> m
    /\ forall m2 : files,
         run_call float_str colormaps c m2 = (inr tt, <[call_path c := s]> m2).
Proof.
  intros H.
  destruct (export_success _ _ _ _ _ _ _ _ _ _ _ H)
    as (levels & step & trips & _ & Hp & ->).
  eexists; split; [reflexivity|]. intros m2. by apply export_ok.
Qed.

(** Two successful calls that write the same path: the second one's
    content replaces the first one's, as if the first had not run. *)
Theorem run_call_last_wins float_str colormaps (c1 c2 : call) (m m1 m2 : files) :
  run_call float_str colormaps c1 m = (inr tt, m1) ->
  run_call float_str colormaps c2 m = (inr tt, m2) ->
  call_path c1 = call_path c2 ->
  (run_call float_str colormaps c1 ;; run_call float_str colormaps c2) m
  = run_call float_str colormaps c2 m.
Proof.
  intros H1 H2 Hp.
  destruct (run_call_uniform _ _ _ _ _ H1) as (s1 & _ & E1).
  destruct (run_call_uniform _ _ _ _ _ H2) as (s2 & _ & E2).
  unfold mbind, PyM_bind. rewrite E1, !E2, Hp. f_equal. apply insert_insert_eq.
Qed.

(** Two successful calls that write different paths commute. *)
Theorem run_call_commute float_str colormaps (c1 c2 : call) (m m1 m2 : files) :
  run_call float_str colormaps c1 m = (inr tt, m1) ->
  run_call float_str colormaps c2 m = (inr tt, m2) ->
  call_path c1 <> call_path c2 ->
  (run_call float_str colormaps c1 ;; run_call float_str colormaps c2) m
  = (run_call float_str colormaps c2 ;; run_call float_str colormaps c1) m.
Proof.
  intros H1 H2 Hp.
  destruct (run_call_uniform _ _ _ _ _ H1) as (s1 & _ & E1).
  destruct (run_call_uniform _ _ _ _ _ H2) as (s2 & _ & E2).
  unfold mbind, PyM_bind. rewrite !E1, !E2, !E1. f_equal.
  by apply insert_insert_ne.
Qed.

Lemma gray_clip_range t r g b a :
  gray_clip t = (r, g, b, a) -> (0 <= r <= 1 /\ 0 <= g <= 1 /\ 0 <= b <= 1)%Q.
Proof.
  unfold gray_clip, clip01. intros E.
  destruct (Qlt_le_dec t 0) as [H0|H0];
    [|destruct (Qlt_le_dec 1 t) as [H1|H1]];
    injection E as <- <- <- _;
    repeat split; try assumption; compute; discriminate.
Qed.

Lemma example_registry_complete c :
  In c example_calls -> is_Some (example_registry !! cl_colormap c).
Proof.
  intros Hc. repeat destruct Hc as [<-|Hc]; try done; vm_compute; by eexists.
Qed.

(** ** Witnesses of the further properties *)

Lemma export_frame_witness :
  export_cmap_as_pal_txt py_float_repr test_registry "testmap" "ZDR" "DB"
    (-1)%Q 5%Q 3 true {[ "./other.pal" := "x" ]}
  = (inr tt, snd (export_cmap_as_pal_txt py_float_repr test_registry "testmap"
                    "ZDR" "DB" (-1)%Q 5%Q 3 true {[ "./other.pal" := "x" ]}))
  /\ "./other.pal" <> pal_path "testmap" "ZDR"
  /\ snd (export_cmap_as_pal_txt py_float_repr test_registry "testmap" "ZDR"
            "DB" (-1)%Q 5%Q 3 true {[ "./other.pal" := "x" ]})
       !! "./other.pal" = Some "x".
Proof.
  assert (H : export_cmap_as_pal_txt py_float_repr test_registry "testmap"
                "ZDR" "DB" (-1)%Q 5%Q 3 true {[ "./other.pal" := "x" ]}
              = (inr tt, snd (export_cmap_as_pal_txt py_float_repr test_registry
                   "testmap" "ZDR" "DB" (-1)%Q 5%Q 3 true
                   {[ "./other.pal" := "x" ]}))) by (vm_compute; reflexivity).
  assert (Hne : "./other.pal" <> pal_path "testmap" "ZDR")
    by (apply String.eqb_neq; reflexivity).
  split; [exact H|]. split; [exact Hne|].
  rewrite (export_frame _ _ _ _ _ _ _ _ _ _ _ _ H Hne). reflexivity.
Defined.

Lemma export_overwrites_witness :
  export_cmap_as_pal_txt py_float_repr test_registry "testmap" "ZDR" "DB"
    (-1)%Q 5%Q 3 true ∅
  = (inr tt, snd (export_cmap_as_pal_txt py_float_repr test_registry "testmap"
                    "ZDR" "DB" (-1)%Q 5%Q 3 true ∅))
  /\ exists c,
       export_cmap_as_pal_txt py_float_repr test_registry "testmap" "ZDR" "DB"
         (-1)%Q 5%Q 3 true {[ "./testmap_ZDR.pal" := "old" ]}
       = (inr tt, <[pal_path "testmap" "ZDR" := c]>
                    {[ "./testmap_ZDR.pal" := "old" ]}).
Proof.
  assert (H : export_cmap_as_pal_txt py_float_repr test_registry "testmap"
                "ZDR" "DB" (-1)%Q 5%Q 3 true ∅
              = (inr tt, snd (export_cmap_as_pal_txt py_float_repr test_registry
                   "testmap" "ZDR" "DB" (-1)%Q 5%Q 3 true ∅)))
    by (vm_compute; reflexivity).
  split; [exact H|].
  destruct (export_overwrites _ _ _ _ _ _ _ _ _ _ _ H) as (c & _ & Hall).
  exists c. exact (Hall _).
Defined.

Lemma export_line_counts_witness :
  export_cmap_as_pal_txt py_float_repr test_registry "testmap" "ZDR" "DB"
    (-1)%Q 5%Q 3 false ∅
  = (inr tt, snd (export_cmap_as_pal_txt py_float_repr test_registry "testmap"
                    "ZDR" "DB" (-1)%Q 5%Q 3 false ∅))
  /\ exists step emitted,
       length (pal_lines py_float_repr "ZDR" "DB" step emitted false) = 7%nat
       /\ length (List.filter (String.prefix "Color: ")
                    (pal_lines py_float_repr "ZDR" "DB" step emitted false))
          = 3%nat.
Proof.
  assert (H : export_cmap_as_pal_txt py_float_repr test_registry "testmap"
                "ZDR" "DB" (-1)%Q 5%Q 3 false ∅
              = (inr tt, snd (export_cmap_as_pal_txt py_float_repr test_registry
                   "testmap" "ZDR" "DB" (-1)%Q 5%Q 3 false ∅)))
    by (vm_compute; reflexivity).
  split; [exact H|].
  destruct (export_line_counts _ _ _ _ _ _ _ _ _ _ _ H)
    as (step & emitted & _ & H2 & H3).
  exists step, emitted. split; [exact H2|exact H3].
Defined.

Lemma export_endpoint_colors_witness :
  test_registry !! "testmap" = Some gray /\ 2 <= 3
  /\ exists step trips tfirst tlast,
       export_cmap_as_pal_txt py_float_repr test_registry "testmap" "ZDR" "DB"
         (-1)%Q 5%Q 3 true ∅
       = (inr tt, <[pal_path "testmap" "ZDR" :=
            render (pal_lines py_float_repr "ZDR" "DB" step (rev trips) true)]> ∅)
       /\ rev trips !! 0%nat = Some tfirst
       /\ rev trips !! 2%nat = Some tlast
       /\ (lvl tfirst == 5)%Q /\ (lvl tlast == -1)%Q.
Proof.
  split; [reflexivity|]. split; [lia|].
  destruct (export_endpoint_colors py_float_repr test_registry "testmap" "ZDR"
              "DB" (-1)%Q 5%Q 3 true gray ∅ ltac:(reflexivity) ltac:(lia))
    as (step & trips & tf & tl & H0 & H1 & H2 & H3 & H4 & _).
  exists step, trips, tf, tl. split; [exact H0|]. split; [exact H1|].
  split; [exact H2|]. split; [exact H3|exact H4].
Defined.

Lemma export_zero_levels_witness :
  test_registry !! "testmap" = Some gray
  /\ export_cmap_as_pal_txt py_float_repr test_registry "testmap" "ZDR" "DB"
       (-1)%Q 5%Q 0 true ∅
     = (inr tt, <[pal_path "testmap" "ZDR" :=
          render (header_lines py_float_repr "ZDR" "DB" None
                  ++ [sentinel_line])]> ∅).
Proof.
  split; [reflexivity|].
  exact (export_zero_levels py_float_repr test_registry "testmap" "ZDR" "DB"
           (-1)%Q 5%Q true gray ∅ eq_refl).
Defined.

Lemma export_equal_bounds_witness :
  test_registry !! "testmap" = Some gray /\ 2 <= 4
  /\ exists step trips,
       prepare test_registry "testmap" 2%Q 2%Q 4 = inr (Some step, trips)
       /\ (step == 0)%Q /\ length trips = 4%nat
       /\ Forall (fun t => (lvl t == 2)%Q) trips.
Proof.
  split; [reflexivity|]. split; [lia|].
  exact (export_equal_bounds test_registry "testmap" 2%Q 4 gray
           eq_refl ltac:(lia)).
Defined.

Lemma export_channel_columns_witness :
  ({[ "testmap" := gray_clip ]} : gmap string colormap) !! "testmap"
    = Some gray_clip
  /\ 2 <= 5
  /\ (forall t r g b a, gray_clip t = (r, g, b, a) ->
        (0 <= r <= 1 /\ 0 <= g <= 1 /\ 0 <= b <= 1)%Q)
  /\ exists step trips,
       prepare {[ "testmap" := gray_clip ]} "testmap" (-3)%Q 7%Q 5
       = inr (step, trips)
       /\ Forall (fun t => String.length (fmt_4d (red t)) = 4%nat
                           /\ String.length (fmt_4d (green t)) = 4%nat
                           /\ String.length (fmt_4d (blue t)) = 4%nat) trips.
Proof.
  split; [reflexivity|]. split; [lia|]. split; [exact gray_clip_range|].
  exact (export_channel_columns {[ "testmap" := gray_clip ]} "testmap"
           (-3)%Q 7%Q 5 gray_clip eq_refl ltac:(lia) gray_clip_range).
Defined.

Lemma run_examples_ok_witness :
  (forall c, In c example_calls -> is_Some (example_registry !! cl_colormap c))
  /\ exists m', run_examples py_float_repr example_registry ∅ = (inr tt, m')
     /\ forall c, In c example_calls -> is_Some (m' !! call_path c).
Proof.
  split; [exact example_registry_complete|].
  destruct (run_examples_ok py_float_repr example_registry ∅
              example_registry_complete) as (m' & Hrun & Hin & _).
  exists m'. split; [exact Hrun|].
  intros c Hc. destruct (Hin c Hc) as (step & trips & _ & ->). by eexists.
Defined.

Lemma run_examples_cc_scale_witness :
  (forall c, In c example_calls -> is_Some (example_registry !! cl_colormap c))
  /\ exists m' rest,
       run_examples py_float_repr example_registry ∅ = (inr tt, m')
       /\ m' !! "./pyart_HomeyerRainbow_CC.pal"
          = Some (render (["Product: CC"; "Units:   Unitless"; "Scale: 100"; ""]
                          ++ rest)).
Proof.
  split; [exact example_registry_complete|].
  exact (run_examples_cc_scale py_float_repr example_registry ∅
           example_registry_complete).
Defined.

Lemma run_call_last_wins_witness :
  run_call py_float_repr test_registry
    (mk_call "testmap" "ZDR" "DB" (-1) 5 3 true) ∅
  = (inr tt, snd (run_call py_float_repr test_registry
                    (mk_call "testmap" "ZDR" "DB" (-1) 5 3 true) ∅))
  /\ run_call py_float_repr test_registry
       (mk_call "testmap" "ZDR" "KM" 0 1 2 false) ∅
     = (inr tt, snd (run_call py_float_repr test_registry
                       (mk_call "testmap" "ZDR" "KM" 0 1 2 false) ∅))
  /\ (run_call py_float_repr test_registry
        (mk_call "testmap" "ZDR" "DB" (-1) 5 3 true) ;;
      run_call py_float_repr test_registry
        (mk_call "testmap" "ZDR" "KM" 0 1 2 false)) ∅
     = run_call py_float_repr test_registry
         (mk_call "testmap" "ZDR" "KM" 0 1 2 false) ∅.
Proof.
  assert (H1 : run_call py_float_repr test_registry
                 (mk_call "testmap" "ZDR" "DB" (-1) 5 3 true) ∅
               = (inr tt, snd (run_call py_float_repr test_registry
                   (mk_call "testmap" "ZDR" "DB" (-1) 5 3 true) ∅)))
    by (vm_compute; reflexivity).
  assert (H2 : run_call py_float_repr test_registry
                 (mk_call "testmap" "ZDR" "KM" 0 1 2 false) ∅
               = (inr tt, snd (run_call py_float_repr test_registry
                   (mk_call "testmap" "ZDR" "KM" 0 1 2 false) ∅)))
    by (vm_compute; reflexivity).
  split; [exact H1|]. split; [exact H2|].
  exact (run_call_last_wins _ _ _ _ _ _ _ H1 H2 eq_refl).
Defined.

Lemma run_call_commute_witness :
  run_call py_float_repr test_registry
    (mk_call "testmap" "ZDR" "DB" (-1) 5 3 true) ∅
  = (inr tt, snd (run_call py_float_repr test_registry
                    (mk_call "testmap" "ZDR" "DB" (-1) 5 3 true) ∅))
  /\ run_call py_float_repr test_registry
       (mk_call "testmap" "CC" "Unitless" 0 1 2 false) ∅
     = (inr tt, snd (run_call py_float_repr test_registry
                       (mk_call "testmap" "CC" "Unitless" 0 1 2 false) ∅))
  /\ call_path (mk_call "testmap" "ZDR" "DB" (-1) 5 3 true)
     <> call_path (mk_call "testmap" "CC" "Unitless" 0 1 2 false)
  /\ (run_call py_float_repr test_registry
        (mk_call "testmap" "ZDR" "DB" (-1) 5 3 true) ;;
      run_call py_float_repr test_registry
        (mk_call "testmap" "CC" "Unitless" 0 1 2 false)) ∅
     = (run_call py_float_repr test_registry
          (mk_call "testmap" "CC" "Unitless" 0 1 2 false) ;;
        run_call py_float_repr test_registry
          (mk_call "testmap" "ZDR" "DB" (-1) 5 3 true)) ∅.
Proof.
  assert (H1 : run_call py_float_repr test_registry
                 (mk_call "testmap" "ZDR" "DB" (-1) 5 3 true) ∅
               = (inr tt, snd (run_call py_float_repr test_registry
                   (mk_call "testmap" "ZDR" "DB" (-1) 5 3 true) ∅)))
    by (vm_compute; reflexivity).
  assert (H2 : run_call py_float_repr test_registry
                 (mk_call "testmap" "CC" "Unitless" 0 1 2 false) ∅
               = (inr tt, snd (run_call py_float_repr test_registry
                   (mk_call "testmap" "CC" "Unitless" 0 1 2 false) ∅)))
    by (vm_compute; reflexivity).
  assert (Hne : call_path (mk_call "testmap" "ZDR" "DB" (-1) 5 3 true)
                <> call_path (mk_call "testmap" "CC" "Unitless" 0 1 2 false))
    by (apply String.eqb_neq; reflexivity).
  split; [exact H1|]. split; [exact H2|]. split; [exact Hne|].
  exact (run_call_commute _ _ _ _ _ _ _ H1 H2 Hne).
Defined.
